(** * PODIOWriterModule: a shallow embedding of the module's constructor,
    [initialize], [run] and [finalize] (src/modules/PODIOWriter). *)

From stdpp Require Import base gmap strings list pretty.
From Stdlib Require Import Reals.

Open Scope string_scope.

(** ** Module errors and a small error monad *)

(** Errors the module (or the configuration it reads) can throw. *)
Inductive module_error :=
  | MissingKeyError (key : string)       (* Configuration::get on an absent key *)
  | InvalidValueError (key : string)     (* Configuration::get with the wrong type *)
  | ModuleError (msg : string).          (* allpix::ModuleError *)

Inductive result (A : Type) :=
  | Ok (a : A)
  | Err (e : module_error).
Arguments Ok {A} a.
Arguments Err {A} e.

Definition bind {A B} (m : result A) (k : A -> result B) : result B :=
  match m with Ok a => k a | Err e => Err e end.

Notation "x <-- m ;; k" := (bind m (fun x => k))
  (at level 100, m at next level, right associativity).

(** ** Configuration *)

(** Values of the steering file as the module reads them. *)
Inductive cvalue :=
  | VInt (z : Z)
  | VStr (s : string)
  | VBool (b : bool)
  | VMatrix (m : list (list string)).

(** A [Configuration] as a key-value map. *)
Definition configuration := gmap string cvalue.

(** [Configuration::setDefault]: only sets the key when it is absent. *)
Definition setDefault (k : string) (v : cvalue) (c : configuration) : configuration :=
  match c !! k with Some _ => c | None => <[k := v]> c end.

(** [Configuration::has]. *)
Definition has (c : configuration) (k : string) : bool :=
  match c !! k with Some _ => true | None => false end.

(** [Configuration::get<int>], [get<std::string>], [get<bool>]: throw when
    the key is absent or holds a value of another type. *)
Definition get_int (c : configuration) (k : string) : result Z :=
  match c !! k with
  | Some (VInt z) => Ok z
  | Some _ => Err (InvalidValueError k)
  | None => Err (MissingKeyError k)
  end.

Definition get_string (c : configuration) (k : string) : result string :=
  match c !! k with
  | Some (VStr s) => Ok s
  | Some _ => Err (InvalidValueError k)
  | None => Err (MissingKeyError k)
  end.

Definition get_bool (c : configuration) (k : string) : result bool :=
  match c !! k with
  | Some (VBool b) => Ok b
  | Some _ => Err (InvalidValueError k)
  | None => Err (MissingKeyError k)
  end.

(** ** Geometry model (read-only input) *)

Record XYZ := mkXYZ { x : R; y : R; z : R }.

(** A 3x3 rotation matrix, row by row. *)
Record Rotation3D := mkRot { rxx : R; rxy : R; rxz : R;
                             ryx : R; ryy : R; ryz : R;
                             rzx : R; rzy : R; rzz : R }.

Record DetectorModel := mkModel {
  getNPixels : nat * nat;       (* npixels.x(), npixels.y() *)
  getPixelSize : R * R;         (* pitch.x(), pitch.y() *)
  getSize : XYZ;                (* total size *)
  getSensorSize : XYZ           (* sensor (sensitive) size *)
}.

Record Detector := mkDetector {
  getName : string;
  getType : string;
  getPosition : XYZ;
  getOrientation : Rotation3D;
  getModel : DetectorModel
}.

Inductive MagneticFieldType := NONE | CONSTANT | LINEAR | QUADRUPOLE | CUSTOM.

Record GeometryManager := mkGeo {
  getDetectors : list Detector;
  getMagneticFieldType : MagneticFieldType;
  field_at_origin : XYZ          (* getMagneticField(XYZPoint(0,0,0)) *)
}.

(** ** Messages and output records *)

Record PixelHit := mkHit { hit_x : nat; hit_y : nat }.

(** One [PixelHitMessage]: the detector it belongs to and its hits. *)
Record PixelHitMessage := mkMsg { msg_detector : string; msg_hits : list PixelHit }.

(** An encoded hit of a [TrackerData] collection: the fields given to the
    cell-ID encoder. *)
Record EncodedHit := mkEnc { enc_sensorID : nat; enc_x : nat; enc_y : nat }.

(** A named collection registered in the podio [EventStore]. *)
Definition collection := (string * list EncodedHit)%type.

(** The [LCEventImpl] the code builds in [run]. *)
Record LCEvent := mkLCEvent {
  ev_run : Z; ev_number : Z; ev_type : Z; ev_collections : list collection
}.

(** Records of the LCIO output file. *)
Inductive lcio_record :=
  | RunHeader (run_number : Z) (detector_name : string)
  | LCEventRecord (e : LCEvent).

(** ** Module state (the members the source uses) *)

Record PODIOWriterModule := mkModule {
  config_ : configuration;
  geo_mgr_ : GeometryManager;
  pixel_type_ : Z;
  detector_name_ : string;
  dump_mc_truth_ : bool;
  collection_names_vector_ : list string;
  detector_names_to_id_ : gmap string nat;
  geometry_file_name_ : string;
  lcio_file_name_ : string;
  write_cnt_ : nat;
  lcio_file_ : list lcio_record;          (* records written by lcWriter_ *)
  lcio_open_ : bool;
  event_store_ : list collection;         (* collections registered in event_store_ *)
  root_file_ : list (list collection)     (* events written by writer_ *)
}.

(** ** Constructor *)

(** [PODIOWriterModule::PODIOWriterModule]. The two flags [has_short_config]
    and [has_long_config] and the detector list are computed and then left
    unused, as in the source; the members the constructor does not set keep
    their default-constructed values. *)
Definition construct (config : configuration) (geo : GeometryManager)
    : result PODIOWriterModule :=
  let config := setDefault "file_name" (VStr "output.edm4allpix.root") config in
  pixel_type <-- get_int config "pixel_type" ;;
  detector_name <-- get_string config "detector_name" ;;
  dump_mc_truth <-- get_bool config "dump_mc_truth" ;;
  let has_short_config := has config "output_collection_name" in
  let has_long_config := has config "detector_assignment" in
  let detectors := getDetectors geo in
  Ok {| config_ := config; geo_mgr_ := geo; pixel_type_ := pixel_type;
        detector_name_ := detector_name; dump_mc_truth_ := dump_mc_truth;
        collection_names_vector_ := []; detector_names_to_id_ := ∅;
        geometry_file_name_ := ""; lcio_file_name_ := ""; write_cnt_ := 0;
        lcio_file_ := []; lcio_open_ := false;
        event_store_ := []; root_file_ := [] |}.

(** ** initialize *)

(** [PODIOWriterModule::initialize]. [createOutputFile] is the framework's
    path resolution ([Module::createOutputFile]); the LCIO file is opened
    with [WRITE_NEW] and receives the run header; a fresh podio
    [EventStore] and [ROOTWriter] are created. *)
Definition initialize (createOutputFile : string -> string -> string)
    (m : PODIOWriterModule) : result PODIOWriterModule :=
  geometry_file <-- get_string (config_ m) "geometry_file" ;;
  let geometry_file_name := createOutputFile geometry_file "xml" in
  file_name <-- get_string (config_ m) "file_name" ;;
  let lcio_file_name := createOutputFile file_name "slcio" in
  Ok {| config_ := config_ m; geo_mgr_ := geo_mgr_ m; pixel_type_ := pixel_type_ m;
        detector_name_ := detector_name_ m; dump_mc_truth_ := dump_mc_truth_ m;
        collection_names_vector_ := collection_names_vector_ m;
        detector_names_to_id_ := detector_names_to_id_ m;
        geometry_file_name_ := geometry_file_name; lcio_file_name_ := lcio_file_name;
        write_cnt_ := write_cnt_ m;
        lcio_file_ := [RunHeader 1 (detector_name_ m)]; lcio_open_ := true;
        event_store_ := []; root_file_ := [] |}.

(** ** run *)

(** [EventStore::clear]: empties every registered collection. *)
Definition clear_store (s : list collection) : list collection :=
  map (fun c => (c.1, [])) s.

(** The event the code builds locally in [run] (run number 1, the event
    number, [EventType] 2, no collection added to it). *)
Definition make_lcevent (event_number : Z) : LCEvent :=
  mkLCEvent 1 event_number 2 [].

(** [PODIOWriterModule::run]. [pixel_messages] is the result of
    [fetchMultiMessage<PixelHitMessage>]. The [LCEventImpl], the output
    collections and their encoders are local to the call and handed to no
    writer; [writer_->writeEvent()] writes the collections registered in
    [event_store_], which is then cleared. *)
Definition run (m : PODIOWriterModule) (pixel_messages : list PixelHitMessage)
    (event_number : Z) : result PODIOWriterModule :=
  let evt := make_lcevent event_number in
  let output_col_vec :=
    map (fun _ => ("TrackerData", [] : list EncodedHit)) (collection_names_vector_ m) in
  let mc_cluster_vec := @None collection in
  let mc_cluster_raw_vec := @None collection in
  let mc_hit_vec := @None collection in
  let mc_track_vec := @None collection in
  Ok {| config_ := config_ m; geo_mgr_ := geo_mgr_ m; pixel_type_ := pixel_type_ m;
        detector_name_ := detector_name_ m; dump_mc_truth_ := dump_mc_truth_ m;
        collection_names_vector_ := collection_names_vector_ m;
        detector_names_to_id_ := detector_names_to_id_ m;
        geometry_file_name_ := geometry_file_name_ m; lcio_file_name_ := lcio_file_name_ m;
        write_cnt_ := write_cnt_ m;
        lcio_file_ := lcio_file_ m; lcio_open_ := lcio_open_ m;
        event_store_ := clear_store (event_store_ m);
        root_file_ := (root_file_ m ++ [event_store_ m])%list |}.

(** Construct, initialize and run the given events in order. *)
Fixpoint run_events (m : PODIOWriterModule) (events : list (list PixelHitMessage * Z))
    : result PODIOWriterModule :=
  match events with
  | [] => Ok m
  | (msgs, n) :: rest => m' <-- run m msgs n ;; run_events m' rest
  end.

Definition pipeline (createOutputFile : string -> string -> string)
    (config : configuration) (geo : GeometryManager)
    (events : list (list PixelHitMessage * Z)) : result PODIOWriterModule :=
  m <-- construct config geo ;;
  m <-- initialize createOutputFile m ;;
  run_events m events.

(** ** finalize: the GEAR geometry document *)

(** Modelled from the spec: [Units::convert] (allpix core, not part of the
    module's sources) converts an internal value to the named unit; the
    unit registry [unit_value] gives the internal value of one unit. *)
Definition Units_convert (unit_value : string -> R) (v : R) (u : string) : R :=
  (v / unit_value u)%R.

(** An attribute value as it is streamed: a literal text or a number. *)
Inductive attr := Lit (s : string) | Num (r : R).

Record BField := mkBField { bfield_type : string; bx : attr; by_ : attr; bz : attr }.

Record Ladder := mkLadder {
  ladder_ID : nat;
  l_positionX : R; l_positionY : R; l_positionZ : R;
  rotationZY : R; rotationZX : R; rotationXY : R;
  l_sizeX : R; l_sizeY : R; l_thickness : R;
  l_radLength : string
}.

Record Sensitive := mkSensitive {
  sensitive_ID : nat;
  s_positionX : R; s_positionY : R; s_positionZ : R;
  s_sizeX : R; s_sizeY : R; s_thickness : R;
  npixelX : nat; npixelY : nat;
  pitchX : R; pitchY : R; resolution : R;
  rotation1 : string; rotation2 : string; rotation3 : string; rotation4 : string;
  s_radLength : string
}.

(** One [<layer>]: the comment line (name, type), the ladder and the
    sensitive element. *)
Record Layer := mkLayer { layer_comment : string * string; ladder : Ladder; sensitive : Sensitive }.

Record Gear := mkGear {
  global_detectorName : string;
  bfield : BField;
  siplanes_name : string;
  siplanes_geartype : string;
  siplanesType : string;
  siplanesNumber : nat;
  siplanesID : nat;
  layers : list Layer
}.

Inductive log_level := STATUS | WARNING.
Definition log := list (log_level * string).

(** [std::map<std::string, unsigned>::operator[]]: returns the stored value,
    or inserts a value-initialised 0 and returns it. *)
Definition map_index (m : gmap string nat) (k : string) : nat * gmap string nat :=
  match m !! k with
  | Some v => (v, m)
  | None => (0, <[k := 0]> m)
  end.

(** The environment [finalize] reads but does not define: the unit
    registry, [getRotationAnglesFromMatrix] (not part of the sources), and
    whether the opened [std::ofstream] is [good()]. *)
Record FinalizeEnv := mkEnv {
  unit_value : string -> R;
  getRotationAnglesFromMatrix : Rotation3D -> R * R * R;
  stream_good : bool
}.

(** The [<BField>] element and the log lines of that branch. *)
Definition write_bfield (env : FinalizeEnv) (geo : GeometryManager) : BField * log :=
  match getMagneticFieldType geo with
  | CONSTANT =>
      let b_field := field_at_origin geo in
      let conv v := Units_convert (unit_value env) v "T" in
      (mkBField "ConstantBField" (Num (conv (x b_field))) (Num (conv (y b_field)))
                (Num (conv (z b_field))), [])
  | NONE => (mkBField "ConstantBField" (Lit "0.0") (Lit "0.0") (Lit "0.0"), [])
  | _ => (mkBField "ConstantBField" (Lit "0.0") (Lit "0.0") (Lit "0.0"),
          [(WARNING, "Field type not handled by GEAR geometry. Writing null magnetic field instead.")])
  end.

(** The body of the detector loop for one detector; [ids] is
    [detector_names_to_id_], indexed twice (ladder, then sensitive). *)
Definition write_layer (env : FinalizeEnv) (ids : gmap string nat) (detector : Detector)
    : Layer * gmap string nat :=
  let mm v := Units_convert (unit_value env) v "mm" in
  let deg v := Units_convert (unit_value env) v "deg" in
  let position := getPosition detector in
  let model := getModel detector in
  let npixels := getNPixels model in
  let pitch := getPixelSize model in
  let total_size := getSize model in
  let sensitive_size := getSensorSize model in
  let '(ladder_id, ids) := map_index ids (getName detector) in
  let '(a0, a1, a2) := getRotationAnglesFromMatrix env (getOrientation detector) in
  let ld := mkLadder ladder_id (mm (x position)) (mm (y position)) (mm (z position))
              (deg (- a0)%R) (deg (- a1)%R) (deg (- a2)%R)
              (mm (x total_size)) (mm (y total_size)) (mm (z total_size))
              "93.65" in
  let '(sensitive_id, ids) := map_index ids (getName detector) in
  let sn := mkSensitive sensitive_id (mm (x position)) (mm (y position)) (mm (z position))
              (mm (INR npixels.1 * pitch.1)%R) (mm (INR npixels.2 * pitch.2)%R)
              (mm (z sensitive_size))
              npixels.1 npixels.2
              (mm pitch.1) (mm pitch.2) (mm (pitch.1 / sqrt 12)%R)
              "1.0" "0.0" "0.0" "1.0"
              "93.65" in
  (mkLayer (getName detector, getType detector) ld sn, ids).

Fixpoint write_layers (env : FinalizeEnv) (ids : gmap string nat) (detectors : list Detector)
    : list Layer * gmap string nat :=
  match detectors with
  | [] => ([], ids)
  | d :: ds =>
      let '(l, ids) := write_layer env ids d in
      let '(ls, ids) := write_layers env ids ds in
      (l :: ls, ids)
  end.

(** [PODIOWriterModule::finalize]: closes the LCIO writer, then, when
    [geometry_file_name_] is not empty, opens the geometry file (throwing
    when the stream is not good) and writes the GEAR document. Returns the
    new state, the document written (if any) and the log. *)
Definition finalize (env : FinalizeEnv) (m : PODIOWriterModule)
    : result (PODIOWriterModule * option Gear * log) :=
  let status := [(STATUS, "Wrote " +:+ pretty (write_cnt_ m) +:+ " events to file:")] in
  let with_ids ids :=
    {| config_ := config_ m; geo_mgr_ := geo_mgr_ m; pixel_type_ := pixel_type_ m;
       detector_name_ := detector_name_ m; dump_mc_truth_ := dump_mc_truth_ m;
       collection_names_vector_ := collection_names_vector_ m;
       detector_names_to_id_ := ids;
       geometry_file_name_ := geometry_file_name_ m; lcio_file_name_ := lcio_file_name_ m;
       write_cnt_ := write_cnt_ m;
       lcio_file_ := lcio_file_ m; lcio_open_ := false;
       event_store_ := event_store_ m; root_file_ := root_file_ m |} in
  if negb (String.eqb (geometry_file_name_ m) "") then
    if negb (stream_good env) then Err (ModuleError "Cannot write to GEAR geometry file")
    else
      let geo := geo_mgr_ m in
      let detectors := getDetectors geo in
      let '(bf, warn) := write_bfield env geo in
      let '(ls, ids) := write_layers env (detector_names_to_id_ m) detectors in
      let doc := mkGear (detector_name_ m) bf "SiPlanes" "SiPlanesParameters"
                   "TelescopeWithoutDUT" (length detectors) 0 ls in
      Ok (with_ids ids, Some doc,
          (status ++ warn ++ [(STATUS, "Wrote GEAR geometry to file:")])%list)
  else Ok (with_ids (detector_names_to_id_ m), None, status).

(** Every value of [detector_names_to_id_] is 0. *)
Definition all_zero (ids : gmap string nat) : Prop := map_Forall (fun _ v => v = 0) ids.

(** The field types [finalize] writes without a warning. *)
Definition field_handled (t : MagneticFieldType) : bool :=
  match t with CONSTANT | NONE => true | _ => false end.

(** ** Concrete inputs: the two-detector telescope of the spec's example *)

Module Example.

Definition identity_rotation : Rotation3D :=
  mkRot 1 0 0 0 1 0 0 0 1.

Definition telescope_model : DetectorModel :=
  mkModel (100, 100)%nat (5 / 100, 5 / 100)%R
          (mkXYZ 6 6 (1 / 2)) (mkXYZ 5 5 (3 / 10)).

Definition det0 : Detector :=
  mkDetector "det0" "timepix" (mkXYZ 0 0 0) identity_rotation telescope_model.
Definition det1 : Detector :=
  mkDetector "det1" "timepix" (mkXYZ 0 0 50) identity_rotation telescope_model.

Definition geo (t : MagneticFieldType) : GeometryManager :=
  mkGeo [det0; det1] t (mkXYZ 0 0 0).

(** The keys the constructor and [initialize] require. *)
Definition base_config (dump : bool) : configuration :=
  <["pixel_type" := VInt 2]> (<["detector_name" := VStr "EUTelescope"]>
  (<["dump_mc_truth" := VBool dump]> (<["geometry_file" := VStr "telescope"]> ∅))).

(** Both collection-naming modes supplied. *)
Definition both_modes_config : configuration :=
  <["output_collection_name" := VStr "zsdata_m26"]>
  (<["detector_assignment" := VMatrix [["det0"; "zsdata_m26"]; ["det1"; "zsdata_m26"]]]>
  (base_config false)).

(** The base configuration without [geometry_file], with an invalid
    [file_name]. *)
Definition no_geometry_config : configuration :=
  <["file_name" := VInt 7]> (delete "geometry_file" (base_config false)).

(** [createOutputFile] as the framework's path resolution: name plus extension. *)
Definition createOutputFile (name ext : string) : string := name +:+ "." +:+ ext.

(** One event with one hit on detector 1 at pixel (10,20). *)
Definition one_hit_event : list (list PixelHitMessage * Z) :=
  [([mkMsg "det1" [mkHit 10 20]], 1%Z)].

Definition env_good : FinalizeEnv :=
  mkEnv (fun _ => 1%R) (fun _ => (0, 0, 0)%R) true.

End Example.

(** ** Properties of [run] *)

Lemma run_effect m msgs n :
  exists m', run m msgs n = Ok m' /\
    root_file_ m' = (root_file_ m ++ [event_store_ m])%list /\
    event_store_ m' = clear_store (event_store_ m) /\
    lcio_file_ m' = lcio_file_ m /\
    detector_names_to_id_ m' = detector_names_to_id_ m.
Proof. eexists; split; [reflexivity | repeat split]. Qed.

(** With an empty event store, every event written is empty and the LCIO
    file is left as it was. *)
Lemma run_events_empty_store m evs m' :
  event_store_ m = [] -> run_events m evs = Ok m' ->
  event_store_ m' = [] /\
  root_file_ m' = (root_file_ m ++ replicate (length evs) [])%list /\
  lcio_file_ m' = lcio_file_ m /\
  detector_names_to_id_ m' = detector_names_to_id_ m.
Proof.
  revert m. induction evs as [| [msgs n] evs IH]; intros m Hs Hrun; cbn [run_events] in Hrun.
  - inversion Hrun; subst. rewrite app_nil_r. auto.
  - destruct (run_effect m msgs n) as (m1 & Hr & Hroot & Hst & Hl & Hid).
    rewrite Hr in Hrun. simpl in Hrun.
    rewrite Hs in Hst. simpl in Hst.
    destruct (IH m1 Hst Hrun) as (Hs' & Hroot' & Hl' & Hid').
    rewrite Hroot, Hs in Hroot'. rewrite <- app_assoc in Hroot'.
    repeat split; try congruence. rewrite Hroot'. reflexivity.
Qed.

(** What construction and [initialize] leave behind. *)
Lemma construct_initialize_state cOF cfg geo m0 m :
  construct cfg geo = Ok m0 -> initialize cOF m0 = Ok m ->
  event_store_ m = [] /\ root_file_ m = [] /\
  lcio_file_ m = [RunHeader 1 (detector_name_ m)] /\
  detector_names_to_id_ m = ∅ /\ collection_names_vector_ m = [] /\
  geo_mgr_ m = geo.
Proof.
  unfold construct, initialize.
  destruct (get_int _ "pixel_type"); simpl; [| discriminate].
  destruct (get_string _ "detector_name"); simpl; [| discriminate].
  destruct (get_bool _ "dump_mc_truth"); simpl; [| discriminate].
  intros H0; inversion H0; subst; simpl.
  destruct (get_string _ "geometry_file"); simpl; [| discriminate].
  destruct (get_string _ "file_name"); simpl; [| discriminate].
  intros H; inversion H; subst; simpl; repeat split.
Qed.

Lemma run_events_geo m evs m' :
  run_events m evs = Ok m' -> geo_mgr_ m' = geo_mgr_ m.
Proof.
  revert m. induction evs as [| [msgs n] evs IH]; intros m Hrun;
    cbn [run_events] in Hrun; [inversion Hrun; subst; reflexivity |].
  apply IH in Hrun. exact Hrun.
Qed.

Lemma pipeline_state cOF cfg geo evs m :
  pipeline cOF cfg geo evs = Ok m ->
  event_store_ m = [] /\ root_file_ m = replicate (length evs) [] /\
  (exists name, lcio_file_ m = [RunHeader 1 name]) /\
  detector_names_to_id_ m = ∅ /\ geo_mgr_ m = geo.
Proof.
  unfold pipeline.
  destruct (construct cfg geo) as [m0|] eqn:Hc; simpl; [| discriminate].
  destruct (initialize cOF m0) as [m1|] eqn:Hi; simpl; [| discriminate].
  intros Hrun.
  destruct (construct_initialize_state cOF cfg geo m0 m1 Hc Hi) as (Hs & Hr & Hl & Hid & _ & Hg).
  destruct (run_events_empty_store m1 evs m Hs Hrun) as (Hs' & Hr' & Hl' & Hid').
  rewrite Hr in Hr'. simpl in Hr'.
  apply run_events_geo in Hrun.
  repeat split; try congruence. exists (detector_name_ m1); congruence.
Qed.

(** ** Properties of [finalize] *)

(** A property of each layer that holds whatever [detector_names_to_id_]
    holds holds for every layer of the loop. *)
Lemma write_layers_forall2 env (P : Detector -> Layer -> Prop) :
  (forall ids d, P d (write_layer env ids d).1) ->
  forall ids ds, Forall2 P ds (write_layers env ids ds).1.
Proof.
  intros HP ids ds. revert ids. induction ds as [| d ds IH]; intros ids; simpl.
  - constructor.
  - specialize (HP ids d).
    destruct (write_layer env ids d) as [l ids1]. simpl in HP.
    specialize (IH ids1).
    destruct (write_layers env ids1 ds) as [ls ids2]. simpl in *.
    constructor; assumption.
Qed.

(** The document [finalize] writes, when it writes one. *)
Lemma finalize_some env m m' doc lg :
  finalize env m = Ok (m', Some doc, lg) ->
  geometry_file_name_ m <> "" /\ stream_good env = true /\
  bfield doc = (write_bfield env (geo_mgr_ m)).1 /\
  layers doc = (write_layers env (detector_names_to_id_ m) (getDetectors (geo_mgr_ m))).1 /\
  siplanesNumber doc = length (getDetectors (geo_mgr_ m)) /\
  incl (write_bfield env (geo_mgr_ m)).2 lg.
Proof.
  unfold finalize.
  destruct (String.eqb (geometry_file_name_ m) "") eqn:He; simpl;
    [intros H; inversion H |].
  destruct (stream_good env) eqn:Hg; simpl; [| discriminate].
  destruct (write_bfield env (geo_mgr_ m)) as [bf warn] eqn:Hb.
  destruct (write_layers env (detector_names_to_id_ m) (getDetectors (geo_mgr_ m)))
    as [ls ids] eqn:Hl.
  intros H; inversion H; subst; simpl.
  apply String.eqb_neq in He.
  repeat split; auto.
  intros a Ha. simpl. right. apply in_or_app. left. exact Ha.
Qed.

Lemma map_index_zero ids k :
  all_zero ids -> (map_index ids k).1 = 0 /\ all_zero (map_index ids k).2.
Proof.
  unfold map_index, all_zero. intros H.
  destruct (ids !! k) as [v|] eqn:Hk; simpl.
  - split; [exact (H k v Hk) | exact H].
  - split; [reflexivity |]. apply map_Forall_insert_2; [reflexivity | exact H].
Qed.

(** Starting from a registry holding only zeros, every ladder and sensitive
    ID the loop writes is 0. *)
Lemma write_layers_zero_ids env ids ds :
  all_zero ids ->
  Forall (fun l => ladder_ID (ladder l) = 0 /\ sensitive_ID (sensitive l) = 0)
         (write_layers env ids ds).1.
Proof.
  revert ids. induction ds as [| d ds IH]; intros ids Hz; simpl; [constructor |].
  unfold write_layer.
  destruct (map_index_zero ids (getName d) Hz) as [H1 Hz1].
  destruct (map_index ids (getName d)) as [id1 ids1]. simpl in H1, Hz1.
  destruct (getRotationAnglesFromMatrix env (getOrientation d)) as [[a0 a1] a2].
  destruct (map_index_zero ids1 (getName d) Hz1) as [H2 Hz2].
  destruct (map_index ids1 (getName d)) as [id2 ids2]. simpl in H2, Hz2.
  specialize (IH ids2 Hz2).
  destruct (write_layers env ids2 ds) as [ls ids3]. simpl in *.
  constructor; [split; assumption | exact IH].
Qed.

Lemma Forall2_Forall_right {A B} (Q : B -> Prop) (xs : list A) (ys : list B) :
  Forall2 (fun _ b => Q b) xs ys -> Forall Q ys.
Proof. induction 1; constructor; assumption. Qed.

(** ** Event writing *)

(** C1: for every configuration, geometry and sequence of hit batches on
    which construction, [initialize] and [run] succeed, every event record
    written by the podio writer holds no collection at all, and the LCIO
    file holds only the run header: no hit is ever encoded or written. *)
Theorem C1_run_writes_no_hit cOF cfg geo evs m :
  pipeline cOF cfg geo evs = Ok m ->
  root_file_ m = replicate (length evs) [] /\
  (exists name, lcio_file_ m = [RunHeader 1 name]).
Proof.
  intros H. destruct (pipeline_state cOF cfg geo evs m H) as (_ & Hr & Hl & _).
  split; assumption.
Qed.

Lemma C1_run_writes_no_hit_witness :
  exists m,
    pipeline Example.createOutputFile (Example.base_config false) (Example.geo NONE)
      Example.one_hit_event = Ok m /\
    root_file_ m = [[]] /\ (exists name, lcio_file_ m = [RunHeader 1 name]).
Proof.
  eexists. split; [reflexivity |].
  apply (C1_run_writes_no_hit Example.createOutputFile (Example.base_config false)
           (Example.geo NONE) Example.one_hit_event).
  reflexivity.
Defined.

(** C2: a configuration that supplies both [output_collection_name] and
    [detector_assignment] is accepted: construction, [initialize] and
    [run] all succeed on it; no configuration error is raised. *)
Theorem C2_both_modes_accepted :
  has Example.both_modes_config "output_collection_name" = true /\
  has Example.both_modes_config "detector_assignment" = true /\
  exists m, pipeline Example.createOutputFile Example.both_modes_config (Example.geo NONE)
              Example.one_hit_event = Ok m.
Proof. split; [reflexivity | split; [reflexivity | eexists; reflexivity]]. Qed.

(** C3: [detector_names_to_id_] is never filled, so [operator[]] inserts
    and returns 0 for every detector: after any successful construction,
    [initialize] and [run]s, every ladder and sensitive ID in the geometry
    document is 0, whatever the number of detectors. *)
Theorem C3_all_ids_zero cOF cfg geo evs env m m' doc lg :
  pipeline cOF cfg geo evs = Ok m ->
  finalize env m = Ok (m', Some doc, lg) ->
  Forall (fun l => ladder_ID (ladder l) = 0 /\ sensitive_ID (sensitive l) = 0) (layers doc).
Proof.
  intros Hp Hf.
  destruct (pipeline_state cOF cfg geo evs m Hp) as (_ & _ & _ & Hid & _).
  destruct (finalize_some env m m' doc lg Hf) as (_ & _ & _ & Hl & _).
  rewrite Hl, Hid. apply write_layers_zero_ids.
  apply map_Forall_empty.
Qed.

Lemma C3_all_ids_zero_witness :
  exists m m' doc lg,
    pipeline Example.createOutputFile (Example.base_config false) (Example.geo NONE)
      Example.one_hit_event = Ok m /\
    finalize Example.env_good m = Ok (m', Some doc, lg) /\
    length (layers doc) = 2 /\
    Forall (fun l => ladder_ID (ladder l) = 0 /\ sensitive_ID (sensitive l) = 0) (layers doc).
Proof.
  do 4 eexists. split; [reflexivity |]. split; [reflexivity |]. split; [reflexivity |].
  eapply (C3_all_ids_zero Example.createOutputFile (Example.base_config false)
           (Example.geo NONE) Example.one_hit_event Example.env_good); reflexivity.
Defined.

(** C8: [run] never fails and does not depend on the pixel hit messages at
    all: a hit on a detector absent from the registry is dropped silently
    like every other hit. *)
Theorem C8_run_ignores_messages m msgs n :
  run m msgs n = run m [] n /\ exists m', run m msgs n = Ok m'.
Proof. split; [reflexivity | eexists; reflexivity]. Qed.

(** C9: with [dump_mc_truth] set, the event record written for an event
    holds no collection: the four Monte-Carlo truth collections are left
    as null pointers and never added. *)
Theorem C9_mc_truth_not_written :
  exists m,
    pipeline Example.createOutputFile (Example.base_config true) (Example.geo NONE)
      [([], 1%Z)] = Ok m /\
    dump_mc_truth_ m = true /\ root_file_ m = [[]].
Proof. eexists. split; [reflexivity | split; reflexivity]. Qed.

(** ** The GEAR geometry document *)

Lemma write_layer_radLength env ids d :
  l_radLength (ladder (write_layer env ids d).1) = "93.65" /\
  s_radLength (sensitive (write_layer env ids d).1) = "93.65".
Proof.
  unfold write_layer.
  destruct (map_index ids (getName d)) as [id1 ids1].
  destruct (getRotationAnglesFromMatrix env (getOrientation d)) as [[a0 a1] a2].
  destruct (map_index ids1 (getName d)) as [id2 ids2].
  split; reflexivity.
Qed.

(** C4 (as amended): in every geometry document [finalize] writes, each
    ladder record and its paired sensitive record carry the literal
    radiation length 93.65, not a computed value. *)
Theorem C4_radLength_literal env m m' doc lg :
  finalize env m = Ok (m', Some doc, lg) ->
  Forall (fun l => l_radLength (ladder l) = "93.65" /\ s_radLength (sensitive l) = "93.65")
         (layers doc).
Proof.
  intros Hf. destruct (finalize_some env m m' doc lg Hf) as (_ & _ & _ & Hl & _).
  rewrite Hl. eapply Forall2_Forall_right.
  apply write_layers_forall2. intros ids d. apply write_layer_radLength.
Qed.

Lemma C4_radLength_literal_witness :
  exists m m' doc lg,
    pipeline Example.createOutputFile (Example.base_config false) (Example.geo NONE) [] = Ok m /\
    finalize Example.env_good m = Ok (m', Some doc, lg) /\
    length (layers doc) = 2 /\
    Forall (fun l => l_radLength (ladder l) = "93.65" /\ s_radLength (sensitive l) = "93.65")
           (layers doc).
Proof.
  do 4 eexists. split; [reflexivity |].
  lazymatch goal with
  | |- finalize _ ?M = _ /\ _ =>
      split; [reflexivity |]; split; [reflexivity |];
      eapply (C4_radLength_literal Example.env_good M); reflexivity
  end.
Defined.

(** C4 as stated fails: on the two-detector telescope every ladder record
    carries radLength 93.65, not 94.65. *)
Lemma C4_radLength_not_9465 :
  exists m m' doc lg,
    pipeline Example.createOutputFile (Example.base_config false) (Example.geo NONE) [] = Ok m /\
    finalize Example.env_good m = Ok (m', Some doc, lg) /\
    layers doc <> [] /\
    Forall (fun l => l_radLength (ladder l) <> "94.65") (layers doc).
Proof.
  do 4 eexists. split; [reflexivity |]. split; [reflexivity |].
  split; [discriminate |].
  repeat constructor; discriminate.
Qed.

Lemma write_layer_sensitive env ids d :
  let sn := sensitive (write_layer env ids d).1 in
  let model := getModel d in
  let mm v := Units_convert (unit_value env) v "mm" in
  npixelX sn = (getNPixels model).1 /\ npixelY sn = (getNPixels model).2 /\
  pitchX sn = mm (getPixelSize model).1 /\ pitchY sn = mm (getPixelSize model).2 /\
  s_sizeX sn = mm (INR (getNPixels model).1 * (getPixelSize model).1)%R /\
  s_sizeY sn = mm (INR (getNPixels model).2 * (getPixelSize model).2)%R /\
  s_thickness sn = mm (z (getSensorSize model)) /\
  resolution sn = mm ((getPixelSize model).1 / sqrt 12)%R /\
  rotation1 sn = "1.0" /\ rotation2 sn = "0.0" /\ rotation3 sn = "0.0" /\ rotation4 sn = "1.0".
Proof.
  unfold write_layer.
  destruct (map_index ids (getName d)) as [id1 ids1].
  destruct (getRotationAnglesFromMatrix env (getOrientation d)) as [[a0 a1] a2].
  destruct (map_index ids1 (getName d)) as [id2 ids2].
  simpl. repeat split.
Qed.

(** C5: for every detector, the sensitive record [finalize] writes reports
    sizeX = npixelX * pitchX and sizeY = npixelY * pitchY (the pixel grid
    converted to mm, not the sensor size), thickness = the sensor's z
    extent in mm, resolution = pitchX / sqrt 12, and the identity rotation
    block 1, 0, 0, 1. (Doubles are modelled as real numbers.) *)
Theorem C5_sensitive_extents env m m' doc lg :
  finalize env m = Ok (m', Some doc, lg) ->
  Forall2 (fun d l =>
    let sn := sensitive l in
    let model := getModel d in
    let mm v := Units_convert (unit_value env) v "mm" in
    npixelX sn = (getNPixels model).1 /\ npixelY sn = (getNPixels model).2 /\
    s_sizeX sn = mm (INR (getNPixels model).1 * (getPixelSize model).1)%R /\
    s_sizeY sn = mm (INR (getNPixels model).2 * (getPixelSize model).2)%R /\
    s_sizeX sn = (INR (npixelX sn) * pitchX sn)%R /\
    s_sizeY sn = (INR (npixelY sn) * pitchY sn)%R /\
    s_thickness sn = mm (z (getSensorSize model)) /\
    resolution sn = (pitchX sn / sqrt 12)%R /\
    rotation1 sn = "1.0" /\ rotation2 sn = "0.0" /\
    rotation3 sn = "0.0" /\ rotation4 sn = "1.0")
    (getDetectors (geo_mgr_ m)) (layers doc).
Proof.
  intros Hf. destruct (finalize_some env m m' doc lg Hf) as (_ & _ & _ & Hl & _).
  rewrite Hl. apply write_layers_forall2. intros ids d.
  destruct (write_layer_sensitive env ids d)
    as (Hnx & Hny & Hpx & Hpy & Hsx & Hsy & Ht & Hres & Hr1 & Hr2 & Hr3 & Hr4).
  simpl in *.
  repeat split; try assumption.
  - rewrite Hsx, Hnx, Hpx. unfold Units_convert, Rdiv. ring.
  - rewrite Hsy, Hny, Hpy. unfold Units_convert, Rdiv. ring.
  - rewrite Hres, Hpx. unfold Units_convert, Rdiv. ring.
Qed.

Lemma C5_sensitive_extents_witness :
  exists m m' doc lg,
    pipeline Example.createOutputFile (Example.base_config false) (Example.geo NONE) [] = Ok m /\
    finalize Example.env_good m = Ok (m', Some doc, lg) /\
    length (layers doc) = 2 /\
    List.map (fun l => (npixelX (sensitive l), rotation1 (sensitive l))) (layers doc)
      = [(100, "1.0"); (100, "1.0")] /\
    Forall (fun l => s_sizeX (sensitive l) =
                     (INR (npixelX (sensitive l)) * pitchX (sensitive l))%R) (layers doc).
Proof.
  do 4 eexists. split; [reflexivity |].
  lazymatch goal with
  | |- finalize _ ?M = _ /\ _ =>
      split; [reflexivity |]; split; [reflexivity |]; split; [reflexivity |];
      eapply Forall2_Forall_right;
      eapply Forall2_impl;
      [eapply (C5_sensitive_extents Example.env_good M); reflexivity
      | simpl; intros d l H; apply H]
  end.
Defined.

(** C6: when the geometry file is written, its [<BField>] element holds
    the constant field's three components converted to tesla for a
    constant field, the literal zero vector for no field, and for any other
    field type the literal zero vector together with a logged warning;
    [finalize] does not fail on any field type. *)
Theorem C6_bfield_fallback env m :
  geometry_file_name_ m <> "" -> stream_good env = true ->
  exists m' doc lg, finalize env m = Ok (m', Some doc, lg) /\
  match getMagneticFieldType (geo_mgr_ m) with
  | CONSTANT =>
      let b := field_at_origin (geo_mgr_ m) in
      let tesla v := Units_convert (unit_value env) v "T" in
      bfield doc = mkBField "ConstantBField" (Num (tesla (x b))) (Num (tesla (y b)))
                            (Num (tesla (z b)))
  | NONE => bfield doc = mkBField "ConstantBField" (Lit "0.0") (Lit "0.0") (Lit "0.0")
  | _ => bfield doc = mkBField "ConstantBField" (Lit "0.0") (Lit "0.0") (Lit "0.0") /\
         In (WARNING, "Field type not handled by GEAR geometry. Writing null magnetic field instead.") lg
  end.
Proof.
  intros Hn Hg.
  assert (Hok : exists m' doc lg, finalize env m = Ok (m', Some doc, lg)).
  { unfold finalize.
    apply String.eqb_neq in Hn. rewrite Hn, Hg. simpl.
    destruct (write_bfield env (geo_mgr_ m)) as [bf warn].
    destruct (write_layers env (detector_names_to_id_ m) (getDetectors (geo_mgr_ m))) as [ls ids].
    do 3 eexists. reflexivity. }
  destruct Hok as (m' & doc & lg & Hf).
  exists m', doc, lg. split; [exact Hf |].
  destruct (finalize_some env m m' doc lg Hf) as (_ & _ & Hb & _ & _ & Hw).
  rewrite Hb. unfold write_bfield in *.
  destruct (getMagneticFieldType (geo_mgr_ m)); simpl; try reflexivity;
    split; try reflexivity; apply Hw; left; reflexivity.
Qed.

Lemma C6_bfield_fallback_witness :
  exists m,
    pipeline Example.createOutputFile (Example.base_config false) (Example.geo CUSTOM) [] = Ok m /\
    geometry_file_name_ m <> "" /\ stream_good Example.env_good = true /\
    exists m' doc lg, finalize Example.env_good m = Ok (m', Some doc, lg) /\
      bfield doc = mkBField "ConstantBField" (Lit "0.0") (Lit "0.0") (Lit "0.0") /\
      In (WARNING, "Field type not handled by GEAR geometry. Writing null magnetic field instead.") lg.
Proof.
  eexists. split; [reflexivity |].
  lazymatch goal with
  | |- geometry_file_name_ ?M <> _ /\ _ =>
      split; [cbn; discriminate |]; split; [reflexivity |];
      exact (C6_bfield_fallback Example.env_good M ltac:(cbn; discriminate) eq_refl)
  end.
Defined.

(** C10: with an empty geometry file name, [finalize] writes no geometry
    document and succeeds; conversely, its only error (the stream not
    being good) and any document it writes require a non-empty name. *)
Theorem C10_empty_geometry_name env m :
  (geometry_file_name_ m = "" -> exists m' lg, finalize env m = Ok (m', None, lg)) /\
  (forall e, finalize env m = Err e ->
     geometry_file_name_ m <> "" /\ stream_good env = false /\
     e = ModuleError "Cannot write to GEAR geometry file") /\
  (forall m' doc lg, finalize env m = Ok (m', Some doc, lg) -> geometry_file_name_ m <> "").
Proof.
  split; [| split].
  - intros He. unfold finalize. rewrite He. simpl. do 2 eexists. reflexivity.
  - intros e. unfold finalize.
    destruct (String.eqb (geometry_file_name_ m) "") eqn:He; simpl; [discriminate |].
    destruct (stream_good env); simpl.
    + destruct (write_bfield env (geo_mgr_ m)).
      destruct (write_layers env (detector_names_to_id_ m) (getDetectors (geo_mgr_ m))).
      discriminate.
    + intros H; inversion H; subst. apply String.eqb_neq in He. auto.
  - intros m' doc lg Hf. exact (proj1 (finalize_some env m m' doc lg Hf)).
Qed.

(** ** Further properties of the module *)

Lemma setDefault_lookup_ne k k' v c :
  k <> k' -> setDefault k v c !! k' = c !! k'.
Proof.
  intros Hne. unfold setDefault.
  destruct (c !! k); [reflexivity | apply lookup_insert_ne; exact Hne].
Qed.

Lemma setDefault_lookup_eq k v c :
  setDefault k v c !! k = Some (default v (c !! k)).
Proof.
  unfold setDefault. destruct (c !! k) eqn:E; simpl; [exact E | apply lookup_insert_eq].
Qed.

Lemma construct_fields cfg geo m :
  construct cfg geo = Ok m ->
  config_ m = setDefault "file_name" (VStr "output.edm4allpix.root") cfg /\
  geo_mgr_ m = geo /\ write_cnt_ m = 0 /\ detector_names_to_id_ m = ∅.
Proof.
  unfold construct.
  destruct (get_int _ "pixel_type"); simpl; [| discriminate].
  destruct (get_string _ "detector_name"); simpl; [| discriminate].
  destruct (get_bool _ "dump_mc_truth"); simpl; [| discriminate].
  intros H; inversion H; subst; simpl; repeat split.
Qed.



(** The exact output of [finalize] when it writes a document. *)
Lemma finalize_doc env m m' doc lg :
  finalize env m = Ok (m', Some doc, lg) ->
  let geo := geo_mgr_ m in
  let ds := getDetectors geo in
  doc = mkGear (detector_name_ m) (write_bfield env geo).1 "SiPlanes" "SiPlanesParameters"
          "TelescopeWithoutDUT" (length ds) 0 (write_layers env (detector_names_to_id_ m) ds).1 /\
  lg = ([(STATUS, "Wrote " +:+ pretty (write_cnt_ m) +:+ " events to file:")] ++
        (write_bfield env geo).2 ++ [(STATUS, "Wrote GEAR geometry to file:")])%list /\
  detector_names_to_id_ m' = (write_layers env (detector_names_to_id_ m) ds).2 /\
  geo_mgr_ m' = geo /\ detector_name_ m' = detector_name_ m /\
  geometry_file_name_ m' = geometry_file_name_ m /\ write_cnt_ m' = write_cnt_ m.
Proof.
  unfold finalize.
  destruct (String.eqb (geometry_file_name_ m) "") eqn:He; simpl;
    [intros H; inversion H |].
  destruct (stream_good env) eqn:Hg; simpl; [| discriminate].
  destruct (write_bfield env (geo_mgr_ m)) as [bf warn] eqn:Hb.
  destruct (write_layers env (detector_names_to_id_ m) (getDetectors (geo_mgr_ m)))
    as [ls ids] eqn:Hl.
  intros H; inversion H; subst; simpl. repeat split.
Qed.

(** The state [finalize] leaves, whatever it writes. *)
Lemma finalize_state env m m' od lg :
  finalize env m = Ok (m', od, lg) ->
  lcio_open_ m' = false /\ lcio_file_ m' = lcio_file_ m /\
  root_file_ m' = root_file_ m /\ event_store_ m' = event_store_ m /\
  geo_mgr_ m' = geo_mgr_ m /\ geometry_file_name_ m' = geometry_file_name_ m.
Proof.
  unfold finalize.
  destruct (String.eqb (geometry_file_name_ m) "") eqn:He; simpl;
    [intros H; inversion H; subst; simpl; repeat split |].
  destruct (stream_good env) eqn:Hg; simpl; [| discriminate].
  destruct (write_bfield env (geo_mgr_ m)) as [bf warn] eqn:Hb.
  destruct (write_layers env (detector_names_to_id_ m) (getDetectors (geo_mgr_ m)))
    as [ls ids] eqn:Hl.
  intros H; inversion H; subst; simpl. repeat split.
Qed.

(** [operator[]] as insert/lookup. *)
Lemma map_index_lookup_eq ids k :
  (map_index ids k).2 !! k = Some (map_index ids k).1.
Proof.
  unfold map_index. destruct (ids !! k) eqn:E; simpl; [exact E | apply lookup_insert_eq].
Qed.

Lemma map_index_lookup_ne ids k k' :
  k <> k' -> (map_index ids k).2 !! k' = ids !! k'.
Proof.
  intros Hne. unfold map_index.
  destruct (ids !! k); simpl; [reflexivity | apply lookup_insert_ne; exact Hne].
Qed.

Lemma map_index_found ids k v :
  ids !! k = Some v -> map_index ids k = (v, ids).
Proof. intros H. unfold map_index. rewrite H. reflexivity. Qed.

Lemma map_index_keeps ids k k' v :
  ids !! k' = Some v -> (map_index ids k).2 !! k' = Some v.
Proof.
  intros H. destruct (decide (k = k')) as [<- | Hne].
  - rewrite (map_index_found ids k v H). exact H.
  - rewrite map_index_lookup_ne by exact Hne. exact H.
Qed.

Lemma map_index_twice ids k :
  map_index (map_index ids k).2 k = map_index ids k.
Proof.
  destruct (map_index ids k) as [v ids'] eqn:E.
  apply map_index_found.
  pose proof (map_index_lookup_eq ids k) as H. rewrite E in H. exact H.
Qed.

Lemma write_layer_ids env ids d :
  (write_layer env ids d).2 = (map_index ids (getName d)).2 /\
  ladder_ID (ladder (write_layer env ids d).1) = (map_index ids (getName d)).1 /\
  sensitive_ID (sensitive (write_layer env ids d).1) = (map_index ids (getName d)).1.
Proof.
  pose proof (map_index_twice ids (getName d)) as Ht.
  unfold write_layer.
  destruct (map_index ids (getName d)) as [v1 i1] eqn:E1. simpl in Ht.
  destruct (getRotationAnglesFromMatrix env (getOrientation d)) as [[a0 a1] a2].
  rewrite Ht. simpl. repeat split.
Qed.


Lemma write_layers_keeps env ids ds k v :
  ids !! k = Some v -> (write_layers env ids ds).2 !! k = Some v.
Proof.
  revert ids. induction ds as [| d ds IH]; intros ids H; simpl; [exact H |].
  destruct (write_layer_ids env ids d) as (Hids & _).
  destruct (write_layer env ids d) as [l ids1]. simpl in Hids. subst ids1.
  specialize (IH _ (map_index_keeps ids (getName d) k v H)).
  destruct (write_layers env _ ds) as [ls ids2]. exact IH.
Qed.

Lemma write_layers_other env ids ds k :
  (forall d, In d ds -> getName d <> k) -> (write_layers env ids ds).2 !! k = ids !! k.
Proof.
  revert ids. induction ds as [| d ds IH]; intros ids H; simpl; [reflexivity |].
  destruct (write_layer_ids env ids d) as (Hids & _).
  destruct (write_layer env ids d) as [l ids1]. simpl in Hids. subst ids1.
  assert (IH' := IH (map_index ids (getName d)).2 (fun d' Hd' => H d' (or_intror Hd'))).
  destruct (write_layers env _ ds) as [ls ids2]. simpl in *.
  rewrite IH'. apply map_index_lookup_ne. apply H. left. reflexivity.
Qed.

(** For every detector, its ladder and sensitive IDs agree and are the
    value the registry holds for its name after the loop. *)
Lemma write_layers_stored_ids env ids ds :
  Forall2 (fun d l => ladder_ID (ladder l) = sensitive_ID (sensitive l) /\
                      (write_layers env ids ds).2 !! getName d = Some (ladder_ID (ladder l)))
          ds (write_layers env ids ds).1.
Proof.
  revert ids. induction ds as [| d ds IH]; intros ids; simpl; [constructor |].
  destruct (write_layer_ids env ids d) as (Hids & Hl & Hs).
  destruct (write_layer env ids d) as [l ids1]. simpl in *. subst ids1.
  pose proof (write_layers_keeps env (map_index ids (getName d)).2 ds (getName d) _
                (map_index_lookup_eq ids (getName d))) as Hk.
  specialize (IH (map_index ids (getName d)).2).
  destruct (write_layers env _ ds) as [ls ids2]. simpl in *.
  constructor; [split; congruence | exact IH].
Qed.


(** X1: construction succeeds exactly when [pixel_type] holds an integer,
    [detector_name] a string and [dump_mc_truth] a boolean; no other key
    (in particular neither collection-naming key) affects it. *)
Theorem construct_ok_iff cfg geo :
  (exists m, construct cfg geo = Ok m) <->
  (exists p, cfg !! "pixel_type" = Some (VInt p)) /\
  (exists s, cfg !! "detector_name" = Some (VStr s)) /\
  (exists b, cfg !! "dump_mc_truth" = Some (VBool b)).
Proof.
  unfold construct, get_int, get_string, get_bool.
  rewrite !setDefault_lookup_ne by discriminate.
  destruct (cfg !! "pixel_type") as [[]|];
  destruct (cfg !! "detector_name") as [[]|];
  destruct (cfg !! "dump_mc_truth") as [[]|]; simpl;
  (split; [intros [? H] | intros ((? & H1) & (? & H2) & (? & H3))]);
  try discriminate; eauto 7.
Qed.

(** X2: the constructor keeps every key of the configuration and adds
    [file_name] = "output.edm4allpix.root" only when it is absent. *)
Theorem construct_config_lookup cfg geo m :
  construct cfg geo = Ok m ->
  (forall k, k <> "file_name" -> config_ m !! k = cfg !! k) /\
  config_ m !! "file_name" = Some (default (VStr "output.edm4allpix.root") (cfg !! "file_name")).
Proof.
  intros Hc. destruct (construct_fields cfg geo m Hc) as (Hcfg & _).
  rewrite Hcfg. split.
  - intros k Hk. apply setDefault_lookup_ne. congruence.
  - apply setDefault_lookup_eq.
Qed.

Lemma construct_config_lookup_witness :
  exists m, construct (Example.base_config false) (Example.geo NONE) = Ok m /\
    (forall k, k <> "file_name" -> config_ m !! k = Example.base_config false !! k) /\
    config_ m !! "file_name" = Some (VStr "output.edm4allpix.root").
Proof.
  eexists. split; [reflexivity |].
  exact (construct_config_lookup (Example.base_config false) (Example.geo NONE) _ eq_refl).
Defined.

(** X3: with no [file_name] in the configuration, [initialize] resolves
    the LCIO file from the default "output.edm4allpix.root", the geometry
    file from [geometry_file], opens a new LCIO file holding only the run
    header, and starts with no event written. *)
Theorem initialize_default_file_name cOF cfg geo m s :
  construct cfg geo = Ok m ->
  cfg !! "file_name" = None ->
  cfg !! "geometry_file" = Some (VStr s) ->
  exists m', initialize cOF m = Ok m' /\
    lcio_file_name_ m' = cOF "output.edm4allpix.root" "slcio" /\
    geometry_file_name_ m' = cOF s "xml" /\
    lcio_file_ m' = [RunHeader 1 (detector_name_ m)] /\ lcio_open_ m' = true /\
    root_file_ m' = [] /\ event_store_ m' = [].
Proof.
  intros Hc Hf Hg. destruct (construct_fields cfg geo m Hc) as (Hcfg & _).
  unfold initialize, get_string. rewrite Hcfg.
  rewrite setDefault_lookup_ne by discriminate. rewrite Hg. simpl.
  rewrite setDefault_lookup_eq, Hf. simpl.
  eexists. split; [reflexivity | repeat split].
Qed.

Lemma initialize_default_file_name_witness :
  exists m, construct (Example.base_config false) (Example.geo NONE) = Ok m /\
    exists m', initialize Example.createOutputFile m = Ok m' /\
    lcio_file_name_ m' = "output.edm4allpix.root.slcio" /\
    geometry_file_name_ m' = "telescope.xml".
Proof.
  eexists. split; [reflexivity |].
  lazymatch goal with
  | |- exists m', initialize _ ?M = _ /\ _ =>
      destruct (initialize_default_file_name Example.createOutputFile (Example.base_config false)
                  (Example.geo NONE) M "telescope" eq_refl eq_refl eq_refl)
        as (m' & Hi & Hl & Hg & _);
      exists m'; split; [exact Hi |]; split; [exact Hl | exact Hg]
  end.
Defined.

(** X4: [initialize] reads [geometry_file] first: when it is absent,
    [initialize] fails with a missing-key error for [geometry_file],
    whatever [file_name] holds. *)
Theorem initialize_missing_geometry_file cOF m :
  config_ m !! "geometry_file" = None ->
  initialize cOF m = Err (MissingKeyError "geometry_file").
Proof. intros H. unfold initialize, get_string. rewrite H. reflexivity. Qed.

Lemma initialize_missing_geometry_file_witness :
  exists m, construct Example.no_geometry_config (Example.geo NONE) = Ok m /\
    config_ m !! "geometry_file" = None /\
    get_string (config_ m) "file_name" = Err (InvalidValueError "file_name") /\
    initialize Example.createOutputFile m = Err (MissingKeyError "geometry_file").
Proof.
  eexists. split; [reflexivity |].
  lazymatch goal with
  | |- config_ ?M !! _ = None /\ _ =>
      split; [reflexivity |]; split; [reflexivity |];
      apply (initialize_missing_geometry_file Example.createOutputFile M); reflexivity
  end.
Defined.




(** X6: every successful [finalize] closes the LCIO writer and leaves
    the LCIO file, the podio event file, the event store, the geometry and
    the geometry file name unchanged. *)
Theorem finalize_closes_lcio env m m' od lg :
  finalize env m = Ok (m', od, lg) ->
  lcio_open_ m' = false /\ lcio_file_ m' = lcio_file_ m /\
  root_file_ m' = root_file_ m /\ event_store_ m' = event_store_ m /\
  geo_mgr_ m' = geo_mgr_ m /\ geometry_file_name_ m' = geometry_file_name_ m.
Proof. apply finalize_state. Qed.

Lemma finalize_closes_lcio_witness :
  exists m m' od lg,
    pipeline Example.createOutputFile (Example.base_config false) (Example.geo NONE)
      Example.one_hit_event = Ok m /\
    lcio_open_ m = true /\
    finalize Example.env_good m = Ok (m', od, lg) /\
    lcio_open_ m' = false /\ root_file_ m' = root_file_ m.
Proof.
  do 4 eexists. split; [reflexivity |]. split; [reflexivity |].
  lazymatch goal with
  | |- finalize _ ?M = _ /\ _ =>
      split; [reflexivity |];
      edestruct (finalize_closes_lcio Example.env_good M) as (H1 & _ & H2 & _);
      [reflexivity | split; [exact H1 | exact H2]]
  end.
Defined.

Lemma Forall2_In_left {A B} (P : A -> B -> Prop) xs ys a :
  Forall2 P xs ys -> In a xs -> exists b, In b ys /\ P a b.
Proof.
  induction 1 as [| x y xs' ys' Hxy _ IH]; simpl; [intros [] |].
  intros [<- | Ha]; [exists y; auto |].
  destruct (IH Ha) as (b & Hb & HP). exists b; auto.
Qed.

Lemma Forall2_map_eq {A B C} (f : A -> C) (g : B -> C) xs ys :
  Forall2 (fun a b => g b = f a) xs ys -> map g ys = map f xs.
Proof. induction 1; simpl; congruence. Qed.

(** X7: a written geometry document names the module's [detector_name],
    has [siplanesID] 0 and [siplanesNumber] equal to the number of
    detectors, and holds one layer per detector, in the geometry's order,
    each headed by that detector's name and type. *)
Theorem finalize_document_layers env m m' doc lg :
  finalize env m = Ok (m', Some doc, lg) ->
  let ds := getDetectors (geo_mgr_ m) in
  global_detectorName doc = detector_name_ m /\ siplanesID doc = 0 /\
  siplanesNumber doc = length ds /\ length (layers doc) = length ds /\
  map layer_comment (layers doc) = map (fun d => (getName d, getType d)) ds.
Proof.
  intros Hf ds. destruct (finalize_doc env m m' doc lg Hf) as (Hd & _).
  assert (H2 : Forall2 (fun d l => layer_comment l = (getName d, getType d)) ds
                 (write_layers env (detector_names_to_id_ m) ds).1).
  { apply write_layers_forall2. intros ids d. unfold write_layer.
    destruct (map_index ids (getName d)) as [v1 i1].
    destruct (getRotationAnglesFromMatrix env (getOrientation d)) as [[a0 a1] a2].
    destruct (map_index i1 (getName d)). reflexivity. }
  rewrite Hd. simpl. repeat split.
  - symmetry. exact (Forall2_length _ _ _ H2).
  - exact (Forall2_map_eq _ _ _ _ H2).
Qed.

Lemma finalize_document_layers_witness :
  exists m m' doc lg,
    pipeline Example.createOutputFile (Example.base_config false) (Example.geo NONE) [] = Ok m /\
    finalize Example.env_good m = Ok (m', Some doc, lg) /\
    siplanesNumber doc = 2 /\
    map layer_comment (layers doc) = [("det0", "timepix"); ("det1", "timepix")].
Proof.
  do 4 eexists. split; [reflexivity |].
  lazymatch goal with
  | |- finalize _ ?M = _ /\ _ =>
      split; [reflexivity |];
      edestruct (finalize_document_layers Example.env_good M) as (_ & _ & H1 & _ & H2);
      [reflexivity | split; [exact H1 | exact H2]]
  end.
Defined.

Lemma write_layer_ladder env ids d :
  let l := (write_layer env ids d).1 in
  let mm v := Units_convert (unit_value env) v "mm" in
  let deg v := Units_convert (unit_value env) v "deg" in
  let p := getPosition d in
  let t := getSize (getModel d) in
  let '(a0, a1, a2) := getRotationAnglesFromMatrix env (getOrientation d) in
  l_positionX (ladder l) = mm (x p) /\ l_positionY (ladder l) = mm (y p) /\
  l_positionZ (ladder l) = mm (z p) /\
  s_positionX (sensitive l) = mm (x p) /\ s_positionY (sensitive l) = mm (y p) /\
  s_positionZ (sensitive l) = mm (z p) /\
  rotationZY (ladder l) = deg (- a0)%R /\ rotationZX (ladder l) = deg (- a1)%R /\
  rotationXY (ladder l) = deg (- a2)%R /\
  l_sizeX (ladder l) = mm (x t) /\ l_sizeY (ladder l) = mm (y t) /\
  l_thickness (ladder l) = mm (z t).
Proof.
  unfold write_layer.
  destruct (map_index ids (getName d)) as [v1 i1].
  destruct (getRotationAnglesFromMatrix env (getOrientation d)) as [[a0 a1] a2].
  destruct (map_index i1 (getName d)). simpl. repeat split.
Qed.

(** X8: for every detector, the ladder and the sensitive record carry its
    position converted to mm; the ladder carries the three angles of
    [getRotationAnglesFromMatrix], each negated and converted to degrees,
    and the total size of the model converted to mm. *)
Theorem finalize_ladder_fields env m m' doc lg :
  finalize env m = Ok (m', Some doc, lg) ->
  Forall2 (fun d l =>
    let mm v := Units_convert (unit_value env) v "mm" in
    let deg v := Units_convert (unit_value env) v "deg" in
    let p := getPosition d in
    let t := getSize (getModel d) in
    let '(a0, a1, a2) := getRotationAnglesFromMatrix env (getOrientation d) in
    l_positionX (ladder l) = mm (x p) /\ l_positionY (ladder l) = mm (y p) /\
    l_positionZ (ladder l) = mm (z p) /\
    s_positionX (sensitive l) = mm (x p) /\ s_positionY (sensitive l) = mm (y p) /\
    s_positionZ (sensitive l) = mm (z p) /\
    rotationZY (ladder l) = deg (- a0)%R /\ rotationZX (ladder l) = deg (- a1)%R /\
    rotationXY (ladder l) = deg (- a2)%R /\
    l_sizeX (ladder l) = mm (x t) /\ l_sizeY (ladder l) = mm (y t) /\
    l_thickness (ladder l) = mm (z t))
    (getDetectors (geo_mgr_ m)) (layers doc).
Proof.
  intros Hf. destruct (finalize_some env m m' doc lg Hf) as (_ & _ & _ & Hl & _).
  rewrite Hl. apply write_layers_forall2. intros ids d. apply write_layer_ladder.
Qed.

Lemma finalize_ladder_fields_witness :
  exists m m' doc lg,
    pipeline Example.createOutputFile (Example.base_config false) (Example.geo NONE) [] = Ok m /\
    finalize Example.env_good m = Ok (m', Some doc, lg) /\
    map (fun l => l_positionZ (ladder l)) (layers doc) = [(0 / 1)%R; (50 / 1)%R].
Proof.
  do 4 eexists. split; [reflexivity |].
  lazymatch goal with
  | |- finalize _ ?M = _ /\ _ =>
      split; [reflexivity |];
      rewrite (Forall2_map_eq
                 (fun d => Units_convert (unit_value Example.env_good) (z (getPosition d)) "mm")
                 (fun l => l_positionZ (ladder l)) (getDetectors (geo_mgr_ M)));
      [reflexivity |];
      eapply Forall2_impl;
      [exact (finalize_ladder_fields Example.env_good M _ _ _ eq_refl)
      | intros d l H; simpl in H; destruct H as (_ & _ & H & _); exact H]
  end.
Defined.

(** X9: after [finalize] writes a document, [detector_names_to_id_] has an
    entry for every detector's name (inserted by [operator[]] when
    missing), every entry it had keeps its value, and no other key is
    touched. *)
Theorem finalize_registry_entries env m m' doc lg :
  finalize env m = Ok (m', Some doc, lg) ->
  let ds := getDetectors (geo_mgr_ m) in
  (forall d, In d ds -> is_Some (detector_names_to_id_ m' !! getName d)) /\
  (forall k v, detector_names_to_id_ m !! k = Some v -> detector_names_to_id_ m' !! k = Some v) /\
  (forall k, (forall d, In d ds -> getName d <> k) ->
     detector_names_to_id_ m' !! k = detector_names_to_id_ m !! k).
Proof.
  intros Hf. cbv zeta. destruct (finalize_doc env m m' doc lg Hf) as (_ & _ & Hids & _).
  rewrite Hids. split; [| split].
  - intros d Hd.
    pose proof (write_layers_stored_ids env (detector_names_to_id_ m)
                  (getDetectors (geo_mgr_ m))) as H2.
    destruct (Forall2_In_left _ _ _ _ H2 Hd) as (l & _ & _ & Hs).
    rewrite Hs. eexists; reflexivity.
  - intros k v Hk. apply write_layers_keeps. exact Hk.
  - intros k Hk. apply write_layers_other. exact Hk.
Qed.

Lemma finalize_registry_entries_witness :
  exists m m' doc lg,
    pipeline Example.createOutputFile (Example.base_config false) (Example.geo NONE) [] = Ok m /\
    finalize Example.env_good m = Ok (m', Some doc, lg) /\
    is_Some (detector_names_to_id_ m' !! "det1") /\
    detector_names_to_id_ m' !! "det2" = None.
Proof.
  do 4 eexists. split; [reflexivity |].
  lazymatch goal with
  | |- finalize _ ?M = _ /\ _ =>
      split; [reflexivity |];
      edestruct (finalize_registry_entries Example.env_good M) as (H1 & _ & H3);
      [reflexivity |];
      split;
      [apply (H1 Example.det1); simpl; right; left; reflexivity
      | rewrite H3; [reflexivity |];
        intros d [<- | [<- | []]]; simpl; discriminate]
  end.
Defined.

(** X10: whatever [detector_names_to_id_] holds before [finalize], each
    layer's ladder ID equals its sensitive ID, and both equal the value the
    registry holds for the detector's name afterwards. *)
Theorem finalize_layer_ids_consistent env m m' doc lg :
  finalize env m = Ok (m', Some doc, lg) ->
  Forall2 (fun d l => ladder_ID (ladder l) = sensitive_ID (sensitive l) /\
                      detector_names_to_id_ m' !! getName d = Some (ladder_ID (ladder l)))
          (getDetectors (geo_mgr_ m)) (layers doc).
Proof.
  intros Hf. destruct (finalize_doc env m m' doc lg Hf) as (Hd & _ & Hids & _).
  rewrite Hids, Hd. simpl. apply write_layers_stored_ids.
Qed.

(** A module whose registry already maps "det1" to 7. *)
Lemma finalize_layer_ids_consistent_witness :
  exists m m' doc lg,
    pipeline Example.createOutputFile (Example.base_config false) (Example.geo NONE) [] = Ok m /\
    finalize Example.env_good
      (mkModule (config_ m) (geo_mgr_ m) (pixel_type_ m) (detector_name_ m) (dump_mc_truth_ m)
         (collection_names_vector_ m) {["det1" := 7]} (geometry_file_name_ m)
         (lcio_file_name_ m) (write_cnt_ m) (lcio_file_ m) (lcio_open_ m)
         (event_store_ m) (root_file_ m)) = Ok (m', Some doc, lg) /\
    map (fun l => ladder_ID (ladder l)) (layers doc) = [0; 7].
Proof.
  do 4 eexists. split; [reflexivity |].
  lazymatch goal with
  | |- finalize _ ?M = Ok (?M', _, _) /\ _ =>
      split; [reflexivity |];
      rewrite (Forall2_map_eq (fun d => default 0 (detector_names_to_id_ M' !! getName d))
                    (fun l => ladder_ID (ladder l)) (getDetectors (geo_mgr_ M)));
      [reflexivity |];
      eapply Forall2_impl;
      [exact (finalize_layer_ids_consistent Example.env_good M _ _ _ eq_refl)
      | intros d l [_ H]; rewrite H; reflexivity]
  end.
Defined.

(** X11: when [finalize] writes a document, it logs a warning exactly when
    the magnetic field type is neither CONSTANT nor NONE. *)
Theorem finalize_warning_iff env m m' doc lg :
  finalize env m = Ok (m', Some doc, lg) ->
  (exists s, In (WARNING, s) lg) <-> field_handled (getMagneticFieldType (geo_mgr_ m)) = false.
Proof.
  intros Hf. destruct (finalize_doc env m m' doc lg Hf) as (_ & Hlg & _).
  rewrite Hlg. unfold write_bfield, field_handled.
  destruct (getMagneticFieldType (geo_mgr_ m)); simpl;
    (split; [intros (s & Hs) | intros H]); try discriminate;
    try (decompose sum Hs; discriminate); eauto.
Qed.

Lemma finalize_warning_iff_witness :
  exists m m' doc lg,
    pipeline Example.createOutputFile (Example.base_config false) (Example.geo QUADRUPOLE) [] = Ok m /\
    finalize Example.env_good m = Ok (m', Some doc, lg) /\
    exists s, In (WARNING, s) lg.
Proof.
  do 4 eexists. split; [reflexivity |].
  lazymatch goal with
  | |- finalize _ ?M = _ /\ _ =>
      split; [reflexivity |];
      apply (proj2 (finalize_warning_iff Example.env_good M _ _ _ eq_refl)); reflexivity
  end.
Defined.







(** X15: with a non-empty geometry file name and a stream that is not
    good, [finalize] throws the [ModuleError] "Cannot write to GEAR
    geometry file", whatever the geometry holds. *)
Theorem finalize_stream_failure env m :
  geometry_file_name_ m <> "" -> stream_good env = false ->
  finalize env m = Err (ModuleError "Cannot write to GEAR geometry file").
Proof.
  intros Hn Hg. unfold finalize.
  apply String.eqb_neq in Hn. rewrite Hn, Hg. reflexivity.
Qed.

Lemma finalize_stream_failure_witness :
  exists m,
    pipeline Example.createOutputFile (Example.base_config false) (Example.geo NONE) [] = Ok m /\
    finalize (mkEnv (fun _ => 1%R) (fun _ => (0, 0, 0)%R) false) m
      = Err (ModuleError "Cannot write to GEAR geometry file").
Proof.
  eexists. split; [reflexivity |].
  lazymatch goal with
  | |- finalize ?E ?M = _ =>
      apply (finalize_stream_failure E M); [cbn; discriminate | reflexivity]
  end.
Defined.
